(** * BatteryAlertTool: the monitoring core of [src/App.jsx]

    A shallow embedding of the React component [BatteryAlertTool]: its
    state hooks become a record, every handler becomes a function on that
    record, and the calls a handler makes to the outside ([triggerAlert],
    [setEstimatedTime]) are collected in a trace.  The file holds two
    versions of the component; they agree on every handler modelled here.

    Numbers.  [battery.level] is a finite JavaScript number and
    [Date.now()] an integer count of milliseconds.  Finite numbers are
    modelled by exact rationals (rounding of doubles is not modelled);
    the results of a division may also be [Infinity], [-Infinity] or
    [NaN], which [jsnum] keeps apart.  The two zeros are identified: the
    only zero divisor of the program is the difference of two equal
    integers, which is [+0].  Comparisons, signs, zero divisors and whole
    numbers are those of the program; the exact value of a rate or of an
    estimate is that of the unrounded quotient, which the stored double
    can miss. *)

From Stdlib Require Import QArith Qround ZArith Lia Lqa.
From stdpp Require Import base list sorting.

(** ** JavaScript numbers *)

Module JS.

Inductive jsnum : Type :=
  | Fin (q : Q)
  | PInf
  | NInf
  | NaN.

(** [a < b] on rationals, as a boolean. *)
Definition Qlt_bool (a b : Q) : bool := negb (Qle_bool b a).

(** [a / b] of JavaScript, before rounding: a finite quotient is the
    exact rational, so it neither rounds to the nearest double nor
    overflows or underflows.  The zero divisor, the infinities, [NaN] and
    the sign of the quotient are as in JavaScript. *)
Definition div (a b : jsnum) : jsnum :=
  match a, b with
  | NaN, _ | _, NaN => NaN
  | Fin x, Fin y =>
      if Qeq_bool y 0 then
        (if Qlt_bool 0 x then PInf else if Qlt_bool x 0 then NInf else NaN)
      else Fin (x / y)
  | Fin _, (PInf | NInf) => Fin 0
  | PInf, Fin y => if Qlt_bool y 0 then NInf else PInf
  | NInf, Fin y => if Qlt_bool y 0 then PInf else NInf
  | (PInf | NInf), (PInf | NInf) => NaN
  end.

(** [a > 0] of JavaScript: false on [NaN]. *)
Definition gt0 (a : jsnum) : bool :=
  match a with
  | Fin x => Qlt_bool 0 x
  | PInf => true
  | NInf | NaN => false
  end.

(** [Math.ceil]. *)
Definition ceil (a : jsnum) : jsnum :=
  match a with
  | Fin x => Fin (inject_Z (Qceiling x))
  | other => other
  end.

(** [a <= 0] of JavaScript: false on [NaN]. *)
Definition le0 (a : jsnum) : bool :=
  match a with
  | Fin x => Qle_bool x 0
  | NInf => true
  | PInf | NaN => false
  end.

(** [a < b] of JavaScript: false when either side is [NaN]. *)
Definition lt (a b : jsnum) : bool :=
  match a, b with
  | NaN, _ | _, NaN => false
  | Fin x, Fin y => Qlt_bool x y
  | Fin _, PInf => true
  | Fin _, NInf => false
  | PInf, _ => false
  | NInf, NInf => false
  | NInf, _ => true
  end.

(** [!a] of JavaScript on a number: true on zero and on [NaN]. *)
Definition falsy (a : jsnum) : bool :=
  match a with
  | Fin x => Qeq_bool x 0
  | NaN => true
  | PInf | NInf => false
  end.

(** [Math.floor]. *)
Definition floor (a : jsnum) : jsnum :=
  match a with
  | Fin x => Fin (inject_Z (Qfloor x))
  | other => other
  end.

(** [Math.round]: the nearest integer, halves rounded up. *)
Definition round (a : jsnum) : jsnum :=
  match a with
  | Fin x => Fin (inject_Z (Qfloor (x + (1 # 2))))
  | other => other
  end.

(** The integer part of a rational, rounding toward zero. *)
Definition Qtrunc (x : Q) : Z :=
  if Qle_bool 0 x then Qfloor x else Qceiling x.

(** [a % b] of JavaScript: the remainder has the sign of [a]. *)
Definition rem (a b : jsnum) : jsnum :=
  match a, b with
  | NaN, _ | _, NaN => NaN
  | (PInf | NInf), _ => NaN
  | Fin x, (PInf | NInf) => Fin x
  | Fin x, Fin y =>
      if Qeq_bool y 0 then NaN
      else Fin (x - y * inject_Z (Qtrunc (x / y)))
  end.

End JS.

Import JS.

(** ** Component state *)

(** [{ level, charging }] as stored by [setBattery]. *)
Record reading : Type := Reading {
  level : Q;
  charging : bool
}.

(** [{ level, time }] as pushed onto [chargingData]. *)
Record sample : Type := Sample {
  s_level : Q;
  s_time : Z
}.

(** The texts given to [setNotification]. *)
Inductive notice : Type :=
  | NoNotice                (* '' *)
  | BatteryApiNotAvailable  (* 'Battery API not available' *)
  | MonitoringActive (target : Z)
                            (* `Monitoring active! I'll alert you at ${target}%` *)
  | MonitoringStopped       (* 'Monitoring stopped' *)
  | TimeToUnplug.           (* `It's time to unplug your charger! ...` *)

(** The [useState] hooks of the component. *)
Record state : Type := State {
  battery : option reading;
  targetPercentage : Z;
  isMonitoring : bool;
  alertTriggered : bool;
  chargingData : list sample;
  estimatedTime : option jsnum;
  notification : notice
}.

(** The values the hooks start from. *)
Definition initial : state :=
  {| battery := None;
     targetPercentage := 90;
     isMonitoring := false;
     alertTriggered := false;
     chargingData := [];
     estimatedTime := None;
     notification := NoNotice |}.

(** Calls the interval callback makes besides the plain state writes. *)
Inductive call : Type :=
  | SetEstimatedTime (minutes : jsnum)   (* [setEstimatedTime(estimatedMinutes)] *)
  | TriggerAlert.                        (* [triggerAlert()]: sound, notification, vibration *)

(** ** The sample window *)

(** The updater given to [setChargingData]:
    [[...prev, x]], then [shift()] when longer than 50. *)
Definition push (prev : list sample) (x : sample) : list sample :=
  let newData := prev ++ [x] in
  if (50 <? length newData)%nat then drop 1 newData else newData.

(** [a.slice(-n)]: the last [n] elements, all of them when there are fewer. *)
Definition slice_last {A : Type} (n : nat) (a : list A) : list A :=
  drop (length a - n) a.

(** ** Rate and estimate *)

(** [timeDiff]: [(currentTime - first.time) / 1000 / 60], with the two
    divisions exact (JavaScript rounds each of them). *)
Definition timeDiff (currentTime : Z) (first : sample) : Q :=
  (inject_Z (currentTime - s_time first) / 1000 / 60)%Q.

(** [levelDiff]: [currentLevel - first.level]. *)
Definition levelDiff (currentLevel : Q) (first : sample) : Q :=
  (currentLevel - s_level first)%Q.

(** [chargeRate] as the callback computes it: guarded by
    [chargingData.length > 5], from [chargingData.slice(-10)[0]] to the
    current reading.  [None] when the guard fails. *)
Definition chargeRate (data : list sample) (currentLevel : Q) (currentTime : Z)
  : option jsnum :=
  if (5 <? length data)%nat then
    match slice_last 10 data with
    | first :: _ =>
        Some (div (Fin (levelDiff currentLevel first))
                  (Fin (timeDiff currentTime first)))
    | [] => None  (* not reached: a list longer than 5 has a last element *)
    end
  else None.

(** [Math.ceil(remainingPercent / chargeRate)], the ceiling being taken
    of the exact quotient (JavaScript takes it of the rounded one, which
    can differ by one). *)
Definition estimatedMinutes (target : Z) (currentLevel : Q) (rate : jsnum) : jsnum :=
  let remainingPercent := (inject_Z target - currentLevel)%Q in
  ceil (div (Fin remainingPercent) rate).

(** ** Handlers *)

(** [updateBattery] / [setBattery]. *)
Definition setBattery (r : reading) (s : state) : state :=
  {| battery := Some r;
     targetPercentage := targetPercentage s;
     isMonitoring := isMonitoring s;
     alertTriggered := alertTriggered s;
     chargingData := chargingData s;
     estimatedTime := estimatedTime s;
     notification := notification s |}.

(** The slider's [onChange]: [setTargetPercentage(Number(e.target.value))]. *)
Definition setTargetPercentage (t : Z) (s : state) : state :=
  {| battery := battery s;
     targetPercentage := t;
     isMonitoring := isMonitoring s;
     alertTriggered := alertTriggered s;
     chargingData := chargingData s;
     estimatedTime := estimatedTime s;
     notification := notification s |}.

(** [triggerAlert]: the two state writes; its outside effects are the
    [TriggerAlert] entry of the trace. *)
Definition triggerAlert (s : state) : state :=
  {| battery := battery s;
     targetPercentage := targetPercentage s;
     isMonitoring := isMonitoring s;
     alertTriggered := true;
     chargingData := chargingData s;
     estimatedTime := estimatedTime s;
     notification := TimeToUnplug |}.

(** [startMonitoring]. *)
Definition startMonitoring (s : state) : state :=
  match battery s with
  | None =>
      {| battery := battery s;
         targetPercentage := targetPercentage s;
         isMonitoring := isMonitoring s;
         alertTriggered := alertTriggered s;
         chargingData := chargingData s;
         estimatedTime := estimatedTime s;
         notification := BatteryApiNotAvailable |}
  | Some _ =>
      {| battery := battery s;
         targetPercentage := targetPercentage s;
         isMonitoring := true;
         alertTriggered := false;
         chargingData := [];
         estimatedTime := estimatedTime s;
         notification := MonitoringActive (targetPercentage s) |}
  end.

(** [stopMonitoring]. *)
Definition stopMonitoring (s : state) : state :=
  {| battery := battery s;
     targetPercentage := targetPercentage s;
     isMonitoring := false;
     alertTriggered := alertTriggered s;
     chargingData := chargingData s;
     estimatedTime := None;
     notification := MonitoringStopped |}.

(** ** The monitoring interval *)

Definition set_chargingData (d : list sample) (s : state) : state :=
  {| battery := battery s;
     targetPercentage := targetPercentage s;
     isMonitoring := isMonitoring s;
     alertTriggered := alertTriggered s;
     chargingData := d;
     estimatedTime := estimatedTime s;
     notification := notification s |}.

Definition set_estimatedTime (e : option jsnum) (s : state) : state :=
  {| battery := battery s;
     targetPercentage := targetPercentage s;
     isMonitoring := isMonitoring s;
     alertTriggered := alertTriggered s;
     chargingData := chargingData s;
     estimatedTime := e;
     notification := notification s |}.

Definition set_alertTriggered (a : bool) (s : state) : state :=
  {| battery := battery s;
     targetPercentage := targetPercentage s;
     isMonitoring := isMonitoring s;
     alertTriggered := a;
     chargingData := chargingData s;
     estimatedTime := estimatedTime s;
     notification := notification s |}.

(** [currentLevel < targetPercentage]. *)
Definition below_target (s : state) (b : reading) : bool :=
  Qlt_bool (level b) (inject_Z (targetPercentage s)).

(** [currentLevel >= targetPercentage]. *)
Definition reached_target (s : state) (b : reading) : bool :=
  Qle_bool (inject_Z (targetPercentage s)) (level b).

(** First [if] of the callback: record the sample and refresh the
    estimate.  [chargingData] in the guard and in the slice is the array
    of the render the callback closes over, that is, of [s]: the updater
    given to [setChargingData] has not run yet. *)
Definition record_and_estimate (b : reading) (s : state) (currentTime : Z)
  : state * list call :=
  if charging b && below_target s b then
    let pushed :=
      set_chargingData (push (chargingData s) (Sample (level b) currentTime)) s in
    match chargeRate (chargingData s) (level b) currentTime with
    | Some rate =>
        if gt0 rate then
          let minutes := estimatedMinutes (targetPercentage s) (level b) rate in
          (set_estimatedTime (Some minutes) pushed, [SetEstimatedTime minutes])
        else (pushed, [])
    | None => (pushed, [])
    end
  else (s, []).

(** Second [if]: fire the alert.  [alertTriggered] is read from [s]. *)
Definition fire_alert (b : reading) (s : state) (acc : state) : state * list call :=
  if reached_target s b && charging b && negb (alertTriggered s)
  then (triggerAlert acc, [TriggerAlert])
  else (acc, []).

(** Third [if]: re-arm when not charging. *)
Definition rearm (b : reading) (acc : state) : state :=
  if negb (charging b) then set_alertTriggered false acc else acc.

(** The function given to [setInterval], for the battery reading [b] and
    the state [s] of the render that installed it. *)
Definition intervalCallback (b : reading) (s : state) (currentTime : Z)
  : state * list call :=
  let '(s1, c1) := record_and_estimate b s currentTime in
  let '(s2, c2) := fire_alert b s s1 in
  (rearm b s2, c1 ++ c2).

(** One firing of the interval.  The effect returns early, installing no
    interval, when [!isMonitoring || !battery]. *)
Definition tick (s : state) (currentTime : Z) : state * list call :=
  match isMonitoring s, battery s with
  | true, Some b => intervalCallback b s currentTime
  | _, _ => (s, [])
  end.

(** A poll: the battery reports [r], then the interval fires at [now]. *)
Definition ingest (r : reading) (now : Z) (s : state) : state * list call :=
  tick (setBattery r s) now.

(** A sequence of polls, with the concatenated trace of calls. *)
Fixpoint run (s : state) (polls : list (reading * Z)) : state * list call :=
  match polls with
  | [] => (s, [])
  | (r, now) :: rest =>
      let '(s1, c1) := ingest r now s in
      let '(s2, c2) := run s1 rest in
      (s2, c1 ++ c2)
  end.

Definition is_alert (c : call) : bool :=
  match c with TriggerAlert => true | SetEstimatedTime _ => false end.

(** How many times [triggerAlert] was called in a trace. *)
Definition alerts (cs : list call) : nat := length (filter is_alert cs).

(** ** The component as a transition system *)

Inductive event : Type :=
  | BatteryChange (r : reading)   (* [levelchange] / [chargingchange], or the first read *)
  | SliderChange (t : Z)          (* the range input's [onChange] *)
  | ClickStart                    (* "Start Protection" *)
  | ClickStop                     (* "Stop Monitoring" *)
  | IntervalTick (now : Z).       (* the 2000 ms interval *)

(** What the rendered page offers: the slider is [disabled={isMonitoring}],
    the start button is rendered when [!isMonitoring] and the stop button
    otherwise, and the interval exists only while monitoring with a
    battery.  The slider is taken to deliver any value here, which makes
    [reachable] a superset of the states of the page; [offered] below
    keeps it to the range of the input. *)
Definition enabled (e : event) (s : state) : bool :=
  match e with
  | BatteryChange _ => true
  | SliderChange _ => negb (isMonitoring s)
  | ClickStart => negb (isMonitoring s)
  | ClickStop => isMonitoring s
  | IntervalTick _ => isMonitoring s && bool_decide (is_Some (battery s))
  end.

Definition step (e : event) (s : state) : state :=
  match e with
  | BatteryChange r => setBattery r s
  | SliderChange t => setTargetPercentage t s
  | ClickStart => startMonitoring s
  | ClickStop => stopMonitoring s
  | IntervalTick now => fst (tick s now)
  end.

Inductive reachable : state -> Prop :=
  | reachable_initial : reachable initial
  | reachable_step s e :
      reachable s -> enabled e s = true -> reachable (step e s).

(** Runs a script of events, [None] when one of them is not offered. *)
Fixpoint exec (es : list event) (s : state) : option state :=
  match es with
  | [] => Some s
  | e :: rest => if enabled e s then exec rest (step e s) else None
  end.

(** The range of the target slider: [min="50" max="100"]. *)
Definition sliderMin : Z := 50.
Definition sliderMax : Z := 100.

(** What the page offers, with the slider held to its range: a range
    input only ever reports a value between its [min] and its [max]. *)
Definition offered (e : event) (s : state) : bool :=
  enabled e s
  && match e with
     | SliderChange t => (sliderMin <=? t)%Z && (t <=? sliderMax)%Z
     | _ => true
     end.

(** The states of the page. *)
Inductive page_reachable : state -> Prop :=
  | page_initial : page_reachable initial
  | page_step s e :
      page_reachable s -> offered e s = true -> page_reachable (step e s).



(** ** The specification's wording of the rate *)

Module Spec.


End Spec.

(** ** What the page shows *)

(** The reading [setBattery] stores for a [BatteryManager] whose [level]
    is [batLevel] (between 0 and 1): [{ level: bat.level * 100, charging }],
    with the exact product (JavaScript rounds it). *)
Definition readBattery (batLevel : Q) (batCharging : bool) : reading :=
  Reading (batLevel * 100) batCharging.

(** [battery ? Math.round(battery.level) : '--']; [None] stands for ['--']. *)
Definition displayedPercent (s : state) : option jsnum :=
  match battery s with
  | Some b => Some (round (Fin (level b)))
  | None => None
  end.

(** The texts [formatTime] returns. *)
Inductive time_label : Type :=
  | Calculating                       (* 'Calculating...' *)
  | LessThanOneMin                    (* 'Less than 1 min' *)
  | MinutesOnly (minutes : jsnum)     (* `${minutes} min` *)
  | HoursMinutes (hours mins : jsnum). (* `${hours}h ${mins}m` *)

(** [formatTime]; [None] is [null]. *)
Definition formatTime (minutes : option jsnum) : time_label :=
  match minutes with
  | None => Calculating
  | Some m =>
      if falsy m then Calculating
      else if lt m (Fin 1) then LessThanOneMin
      else if lt m (Fin 60) then MinutesOnly m
      else
        let hours := floor (div m (Fin 60)) in
        let mins := rem m (Fin 60) in
        HoursMinutes hours mins
  end.

(** [battery?.charging]. *)
Definition batteryCharging (s : state) : bool :=
  match battery s with
  | Some b => charging b
  | None => false
  end.

(** The estimate line of the page:
    [isMonitoring && battery?.charging && estimatedTime !== null &&]
    [formatTime(estimatedTime)]; [None] when the line is not rendered. *)
Definition estimateLine (s : state) : option time_label :=
  if isMonitoring s && batteryCharging s
     && bool_decide (is_Some (estimatedTime s))
  then Some (formatTime (estimatedTime s))
  else None.

(** The regular notification box:
    [notification && !alertTriggered && notification]; the empty string
    is falsy.  [None] when the box is not rendered. *)
Definition noticeBox (s : state) : option notice :=
  match notification s with
  | NoNotice => None
  | text => if negb (alertTriggered s) then Some text else None
  end.

(** ** Counting estimates *)

Definition is_estimate (c : call) : bool :=
  match c with SetEstimatedTime _ => true | TriggerAlert => false end.

(** How many times [setEstimatedTime] was called in a trace. *)
Definition estimates (cs : list call) : nat := length (filter is_estimate cs).

(** The samples of a window are in the order of their times. *)
Definition time_ordered (w : list sample) : Prop :=
  StronglySorted (fun a b : sample => (s_time a <= s_time b)%Z) w.

(** Every sample of the window was taken no later than [t]. *)
Definition not_after (t : Z) (w : list sample) : Prop :=
  Forall (fun a : sample => (s_time a <= t)%Z) w.

(** A reading at a whole level [n], charging or not. *)
Definition whole_level (n : Z) (c : bool) : reading := Reading (inject_Z n) c.

(** Six polls at 69 %, charging, two seconds apart. *)
Definition polls_six : list (reading * Z) :=
  [(Reading 69 true, 2000%Z); (Reading 69 true, 4000%Z); (Reading 69 true, 6000%Z);
   (Reading 69 true, 8000%Z); (Reading 69 true, 10000%Z); (Reading 69 true, 12000%Z)].

(** ** Concrete sessions *)

(** 51 samples, one every 2000 ms. *)
Definition fifty_one : list sample :=
  map (fun i => Sample (inject_Z (Z.of_nat i)) (2000 * Z.of_nat i)) (seq 0 51).

(** The state a script of events leads to from the first render. *)
Definition session_after (es : list event) : state :=
  default initial (exec es initial).

(** A level and the time at which it is polled. *)
Definition at_time (lvl : Q) (t : Z) : Q * Z := (lvl, t).


(** The battery reports a level while charging, then the interval fires. *)
Definition charging_ticks (ps : list (Q * Z)) : list event :=
  flat_map (fun p : Q * Z => [BatteryChange (Reading p.1 true); IntervalTick p.2]) ps.

(** Plugged in at 89 %, monitoring started with the default target 90. *)
Definition script_started : list event :=
  [BatteryChange (Reading 89 true); ClickStart].

(** Three polls of one charging episode: 89 %, 90 %, 95 %. *)
Definition polls_episode : list (reading * Z) :=
  [(Reading 89 true, 2000%Z); (Reading 90 true, 4000%Z); (Reading 95 true, 6000%Z)].

(** Monitoring started at 80 % and one sample recorded. *)
Definition script_one_sample : list event :=
  [BatteryChange (Reading 80 true); ClickStart; IntervalTick 2000].

(** Six samples at 69 %, two seconds apart. *)
Definition script_six_flat : list event :=
  [BatteryChange (Reading 69 true); ClickStart]
  ++ charging_ticks [at_time 69 0; at_time 69 2000; at_time 69 4000;
                     at_time 69 6000; at_time 69 8000; at_time 69 10000].

(** Six samples rising from 50 % to 55 %, two seconds apart. *)
Definition script_six_rising : list event :=
  [BatteryChange (Reading 50 true); ClickStart]
  ++ charging_ticks [at_time 50 0; at_time 51 2000; at_time 52 4000;
                     at_time 53 6000; at_time 54 8000; at_time 55 10000].

(** Ten samples: 50 % at first, then 60 %, two seconds apart. *)
Definition script_ten : list event :=
  [BatteryChange (Reading 50 true); ClickStart]
  ++ charging_ticks [at_time 50 0; at_time 60 2000; at_time 60 4000; at_time 60 6000;
                     at_time 60 8000; at_time 60 10000; at_time 60 12000;
                     at_time 60 14000; at_time 60 16000; at_time 60 18000].

(** Six flat samples, then a poll two minutes in at 70 %: an estimate. *)
Definition script_estimated : list event :=
  script_six_flat ++ [BatteryChange (Reading 70 true); IntervalTick 120000].

(** A session that produced an estimate and was then stopped. *)
Definition script_stopped : list event :=
  script_six_flat
  ++ [BatteryChange (Reading 70 true); IntervalTick 120000; ClickStop].

(** * Properties *)

(** ** The sample window *)

Section Window.

Context {A : Type}.
Implicit Types a b : list A.

Lemma slice_last_length n a : length (slice_last n a) = Nat.min n (length a).
Proof. unfold slice_last. rewrite length_drop. lia. Qed.

Lemma slice_last_all n a : length a <= n -> slice_last n a = a.
Proof.
  intros Hle. unfold slice_last.
  replace (length a - n) with 0 by lia. reflexivity.
Qed.

Lemma slice_last_app_slice n a b :
  slice_last n (slice_last n a ++ b) = slice_last n (a ++ b).
Proof.
  destruct (le_lt_dec (length a) n) as [Hle | Hlt].
  - rewrite (slice_last_all n a Hle). reflexivity.
  - unfold slice_last at 1 3.
    rewrite !length_app, slice_last_length, !drop_app.
    rewrite slice_last_length. unfold slice_last. rewrite drop_drop.
    f_equal; f_equal; lia.
Qed.

Lemma slice_last_app_long n a b :
  n <= length b -> slice_last n (a ++ b) = slice_last n b.
Proof.
  intros Hle. unfold slice_last.
  rewrite length_app, drop_app.
  rewrite (drop_ge a) by lia. simpl. f_equal. lia.
Qed.

End Window.

Lemma push_slice_last w x :
  length w <= 50 -> push w x = slice_last 50 (w ++ [x]).
Proof.
  intros Hle. unfold push, slice_last.
  rewrite length_app. simpl.
  destruct (Nat.ltb_spec 50 (length w + 1)) as [Hlt | Hge].
  - f_equal. lia.
  - replace (length w + 1 - 50) with 0 by lia. reflexivity.
Qed.

Lemma push_length w x : length w <= 50 -> length (push w x) <= 50.
Proof.
  intros Hle. rewrite push_slice_last by exact Hle.
  rewrite slice_last_length. lia.
Qed.

Lemma pushes_slice_last xs : forall w,
  length w <= 50 -> foldl push w xs = slice_last 50 (w ++ xs).
Proof.
  induction xs as [| x xs IH]; intros w Hle; simpl.
  - rewrite app_nil_r. symmetry. apply slice_last_all. exact Hle.
  - rewrite IH by (apply push_length; exact Hle).
    rewrite push_slice_last by exact Hle.
    rewrite slice_last_app_slice, <- app_assoc. reflexivity.
Qed.

(** C3.  Starting from any window of at most 50 samples, a sequence of
    pushes leaves at most 50 samples; a push onto a full window drops the
    oldest sample and appends the new one; and after more than 50 pushes
    the window is exactly the last 50 pushed samples, in the order they
    were pushed. *)
Theorem window_bound (w xs : list sample) :
  length w <= 50 ->
  length (foldl push w xs) <= 50
  /\ (forall x, length w = 50 -> push w x = drop 1 w ++ [x])
  /\ (50 < length xs ->
      length (foldl push w xs) = 50
      /\ foldl push w xs = slice_last 50 xs).
Proof.
  intros Hle. split; [| split].
  - rewrite pushes_slice_last by exact Hle.
    rewrite slice_last_length. lia.
  - intros x Hfull. rewrite push_slice_last by exact Hle.
    unfold slice_last. rewrite length_app, drop_app. simpl.
    rewrite Hfull. reflexivity.
  - intros Hlong. rewrite pushes_slice_last by exact Hle.
    rewrite slice_last_app_long by lia.
    split; [rewrite slice_last_length; lia | reflexivity].
Qed.

Lemma window_bound_witness :
  length (foldl push [] fifty_one) = 50
  /\ foldl push [] fifty_one = drop 1 fifty_one.
Proof.
  assert (H0 : @length sample [] <= 50) by (simpl; lia).
  assert (H1 : 50 < length fifty_one) by (vm_compute; lia).
  destruct (window_bound [] fifty_one H0) as (_ & _ & Hlast).
  destruct (Hlast H1) as [Hlen Heq].
  split; [exact Hlen | rewrite Heq; reflexivity].
Defined.

(** ** One poll *)

Lemma below_not_reached s b : below_target s b = negb (reached_target s b).
Proof. reflexivity. Qed.

Lemma reached_target_spec s b :
  reached_target s b = true <-> (inject_Z (targetPercentage s) <= level b)%Q.
Proof. unfold reached_target. apply Qle_bool_iff. Qed.

Lemma below_target_spec s b :
  below_target s b = true <-> (level b < inject_Z (targetPercentage s))%Q.
Proof.
  unfold below_target, Qlt_bool. rewrite negb_true_iff.
  split.
  - intros Hf. apply Qnot_le_lt. intros Hle.
    apply Qle_bool_iff in Hle. congruence.
  - intros Hlt. destruct (Qle_bool _ _) eqn:E; [| reflexivity].
    apply Qle_bool_iff in E. exfalso. exact (Qlt_not_le _ _ Hlt E).
Qed.

Lemma reached_target_ext s s' b :
  targetPercentage s = targetPercentage s' ->
  reached_target s b = reached_target s' b.
Proof. unfold reached_target. intros ->. reflexivity. Qed.

Lemma ingest_running r now s :
  isMonitoring s = true ->
  ingest r now s = intervalCallback r (setBattery r s) now.
Proof. intros Hrun. unfold ingest, tick. simpl. rewrite Hrun. reflexivity. Qed.

Lemma ingest_idle r now s :
  isMonitoring s = false -> ingest r now s = (setBattery r s, []).
Proof. intros Hrun. unfold ingest, tick. simpl. rewrite Hrun. reflexivity. Qed.

(** The first [if] writes [chargingData] and [estimatedTime] only, and
    never calls [triggerAlert]. *)
Lemma record_and_estimate_frame b s now :
  let s' := (record_and_estimate b s now).1 in
  battery s' = battery s
  /\ targetPercentage s' = targetPercentage s
  /\ isMonitoring s' = isMonitoring s
  /\ alertTriggered s' = alertTriggered s
  /\ notification s' = notification s
  /\ alerts (record_and_estimate b s now).2 = 0.
Proof.
  unfold record_and_estimate.
  destruct (charging b && below_target s b); [| simpl; tauto].
  destruct (chargeRate _ _ _) as [rate |]; [| simpl; tauto].
  destruct (gt0 rate); simpl; tauto.
Qed.

(** Charging at or above the target: only the second [if] can act. *)
Lemma callback_at_target b s now :
  charging b = true -> reached_target s b = true ->
  intervalCallback b s now =
    if alertTriggered s then (s, []) else (triggerAlert s, [TriggerAlert]).
Proof.
  intros Hc Hr. unfold intervalCallback, record_and_estimate, fire_alert, rearm.
  rewrite below_not_reached, Hc, Hr. simpl.
  destruct (alertTriggered s); reflexivity.
Qed.

(** Charging below the target: only the first [if] can act. *)
Lemma callback_below b s now :
  charging b = true -> reached_target s b = false ->
  intervalCallback b s now = record_and_estimate b s now.
Proof.
  intros Hc Hr. unfold intervalCallback, fire_alert, rearm.
  rewrite Hc, Hr. simpl.
  destruct (record_and_estimate b s now) as [s1 c1].
  rewrite app_nil_r. reflexivity.
Qed.

(** Not charging: only the third [if] acts. *)
Lemma callback_unplugged b s now :
  charging b = false ->
  intervalCallback b s now = (set_alertTriggered false s, []).
Proof.
  intros Hc. unfold intervalCallback, record_and_estimate, fire_alert, rearm.
  rewrite Hc, andb_false_r. reflexivity.
Qed.

(** What a poll that finds the battery charging does to the alert. *)
Lemma ingest_charging r now s :
  isMonitoring s = true -> charging r = true ->
  isMonitoring (ingest r now s).1 = true
  /\ targetPercentage (ingest r now s).1 = targetPercentage s
  /\ alertTriggered (ingest r now s).1 = alertTriggered s || reached_target s r
  /\ alerts (ingest r now s).2 =
       if reached_target s r && negb (alertTriggered s) then 1 else 0.
Proof.
  intros Hrun Hc. rewrite (ingest_running r now s Hrun).
  rewrite (reached_target_ext s (setBattery r s) r eq_refl).
  destruct (reached_target (setBattery r s) r) eqn:Hr.
  - rewrite (callback_at_target _ _ _ Hc Hr). simpl.
    destruct (alertTriggered s) eqn:Ha; simpl; rewrite ?Ha; repeat split; auto.
  - rewrite (callback_below _ _ _ Hc Hr).
    destruct (record_and_estimate_frame r (setBattery r s) now)
      as (_ & Ht & Hm & Ha & _ & Hn).
    simpl in Ht, Hm, Ha. rewrite Ht, Hm, Ha, Hn, orb_false_r. auto.
Qed.

(** What the callback does to the running flag and the target. *)
Lemma callback_frame b s now :
  isMonitoring (intervalCallback b s now).1 = isMonitoring s
  /\ targetPercentage (intervalCallback b s now).1 = targetPercentage s.
Proof.
  destruct (charging b) eqn:Hc.
  - destruct (reached_target s b) eqn:Hr.
    + rewrite (callback_at_target _ _ _ Hc Hr).
      destruct (alertTriggered s); simpl; auto.
    + rewrite (callback_below _ _ _ Hc Hr).
      destruct (record_and_estimate_frame b s now) as (_ & Ht & Hm & _).
      auto.
  - rewrite (callback_unplugged _ _ _ Hc). simpl. auto.
Qed.

Lemma tick_frame s now : isMonitoring (tick s now).1 = isMonitoring s.
Proof.
  unfold tick. destruct (isMonitoring s) eqn:Hrun; [| simpl; auto].
  destruct (battery s) as [b |]; [| simpl; auto].
  destruct (callback_frame b s now) as [Hm _]. congruence.
Qed.

(** What any poll does to the running flag and the target. *)
Lemma ingest_frame r now s :
  isMonitoring (ingest r now s).1 = isMonitoring s
  /\ targetPercentage (ingest r now s).1 = targetPercentage s.
Proof.
  destruct (isMonitoring s) eqn:Hrun.
  - rewrite (ingest_running r now s Hrun).
    destruct (callback_frame r (setBattery r s) now) as [Hm Ht].
    simpl in Hm, Ht. rewrite Hm, Ht. auto.
  - rewrite (ingest_idle r now s Hrun). simpl. auto.
Qed.

(** ** Sequences of polls *)

Lemma run_cons s r now rest :
  run s ((r, now) :: rest) =
    ((run (ingest r now s).1 rest).1,
     (ingest r now s).2 ++ (run (ingest r now s).1 rest).2).
Proof.
  simpl. destruct (ingest r now s) as [s1 c1]. simpl.
  destruct (run s1 rest) as [s2 c2]. reflexivity.
Qed.

Lemma alerts_app c1 c2 : alerts (c1 ++ c2) = alerts c1 + alerts c2.
Proof. unfold alerts. rewrite filter_app, length_app. reflexivity. Qed.

Lemma run_frame polls : forall s,
  isMonitoring (run s polls).1 = isMonitoring s
  /\ targetPercentage (run s polls).1 = targetPercentage s.
Proof.
  induction polls as [| [r now] rest IH]; intros s; [simpl; auto |].
  rewrite run_cons. cbn [fst snd].
  destruct (IH (ingest r now s).1) as [Hm Ht].
  destruct (ingest_frame r now s) as [Hm1 Ht1].
  rewrite Hm, Ht, Hm1, Ht1. auto.
Qed.

(** Once the alert has fired, polls that find the battery charging never
    fire it again and never re-arm it. *)
Lemma run_triggered polls : forall s,
  isMonitoring s = true -> alertTriggered s = true ->
  Forall (fun p : reading * Z => charging p.1 = true) polls ->
  alerts (run s polls).2 = 0 /\ alertTriggered (run s polls).1 = true.
Proof.
  induction polls as [| [r now] rest IH]; intros s Hrun Ha Hall; [simpl; auto |].
  apply Forall_cons in Hall as [Hc Hall]. simpl in Hc.
  destruct (ingest_charging r now s Hrun Hc) as (Hm1 & _ & Ha1 & Hn1).
  rewrite Ha in Ha1, Hn1. rewrite andb_false_r in Hn1. simpl in Ha1.
  rewrite run_cons. cbn [fst snd]. rewrite alerts_app.
  destruct (IH _ Hm1 Ha1 Hall) as [Hn Haf].
  rewrite Hn1, Hn, Haf. auto.
Qed.

(** A trace that ends with the alert triggered either started so or
    contains a call of [triggerAlert]. *)
Lemma run_armed_until_fired polls : forall s,
  isMonitoring s = true ->
  alertTriggered (run s polls).1 = true ->
  alertTriggered s = true \/ 1 <= alerts (run s polls).2.
Proof.
  induction polls as [| [r now] rest IH]; intros s Hrun Hend; [simpl in *; auto |].
  rewrite run_cons in Hend. cbn [fst snd] in Hend.
  rewrite run_cons. cbn [fst snd]. rewrite alerts_app.
  destruct (ingest_frame r now s) as [Hm1 _]. rewrite Hrun in Hm1.
  destruct (IH _ Hm1 Hend) as [Ha1 | Hn]; [| right; lia].
  destruct (charging r) eqn:Hc.
  - destruct (ingest_charging r now s Hrun Hc) as (_ & _ & Ha & Hn1).
    rewrite Ha1 in Ha. destruct (alertTriggered s); [left; reflexivity |].
    simpl in Ha. rewrite <- Ha in Hn1. simpl in Hn1. right. lia.
  - rewrite (ingest_running r now s Hrun), (callback_unplugged _ _ _ Hc) in Ha1.
    simpl in Ha1. discriminate.
Qed.

(** ** The alert *)

(** C1.  Over a run of polls that all find the battery charging, in a
    running session, [triggerAlert] is called at most once; it is called
    exactly once if and only if some poll of the run finds the level at or
    above the target while the alert has not been triggered yet. *)
Theorem single_fire (polls : list (reading * Z)) : forall s : state,
  isMonitoring s = true ->
  Forall (fun p : reading * Z => charging p.1 = true) polls ->
  alerts (run s polls).2 <= 1
  /\ (alerts (run s polls).2 = 1 <->
      exists (i : nat) (r : reading) (now : Z),
        polls !! i = Some (r, now)
        /\ reached_target s r = true
        /\ charging r = true
        /\ alertTriggered (run s (take i polls)).1 = false).
Proof.
  induction polls as [| [r now] rest IH]; intros s Hrun Hall.
  - simpl. split; [unfold alerts; simpl; lia |].
    split; [unfold alerts; simpl; lia |].
    intros (i & r & now & Hi & _). rewrite lookup_nil in Hi. discriminate.
  - apply Forall_cons in Hall as [Hc Hall]. simpl in Hc.
    destruct (ingest_charging r now s Hrun Hc) as (Hm1 & Ht1 & Ha1 & Hn1).
    rewrite run_cons. cbn [fst snd]. rewrite alerts_app, Hn1.
    destruct (reached_target s r && negb (alertTriggered s)) eqn:Hfire.
    + (* the alert fires at this poll *)
      apply andb_true_iff in Hfire as [Hr Harmed].
      apply negb_true_iff in Harmed.
      rewrite Hr, orb_true_r in Ha1.
      destruct (run_triggered rest _ Hm1 Ha1 Hall) as [Hn _].
      rewrite Hn. split; [lia |]. split; [| lia].
      intros _. exists 0, r, now. simpl. auto.
    + (* it does not *)
      destruct (IH _ Hm1 Hall) as [Hle Hiff].
      split; [lia |]. rewrite Nat.add_0_l, Hiff. split.
      * intros (i & r' & now' & Hi & Hr' & Hc' & Harmed).
        exists (S i), r', now'.
        change (take (S i) ((r, now) :: rest)) with ((r, now) :: take i rest).
        rewrite run_cons. cbn [fst snd].
        rewrite (reached_target_ext s (ingest r now s).1 r') by congruence.
        auto.
      * intros (i & r' & now' & Hi & Hr' & Hc' & Harmed).
        destruct i as [| i].
        -- simpl in Hi, Harmed. injection Hi as -> ->.
           rewrite Hr', Harmed in Hfire. discriminate.
        -- change (take (S i) ((r, now) :: rest))
             with ((r, now) :: take i rest) in Harmed.
           rewrite run_cons in Harmed. cbn [fst snd] in Harmed.
           exists i, r', now'.
           rewrite <- (reached_target_ext s (ingest r now s).1 r') by congruence.
           auto.
Qed.

Lemma single_fire_witness :
  alerts (run (session_after script_started) polls_episode).2 <= 1
  /\ (alerts (run (session_after script_started) polls_episode).2 = 1 <->
      exists (i : nat) (r : reading) (now : Z),
        polls_episode !! i = Some (r, now)
        /\ reached_target (session_after script_started) r = true
        /\ charging r = true
        /\ alertTriggered
             (run (session_after script_started) (take i polls_episode)).1 = false).
Proof.
  apply (single_fire polls_episode (session_after script_started)).
  - reflexivity.
  - repeat constructor.
Defined.

Lemma run_app a : forall s b,
  run s (a ++ b) =
    ((run (run s a).1 b).1, (run s a).2 ++ (run (run s a).1 b).2).
Proof.
  induction a as [| [r now] a IH]; intros s b.
  - simpl. destruct (run s b). reflexivity.
  - change (((r, now) :: a) ++ b) with ((r, now) :: (a ++ b)).
    rewrite !run_cons. cbn [fst snd]. rewrite IH. cbn [fst snd].
    rewrite app_assoc. reflexivity.
Qed.

(** C2, as the code has it.  A poll that finds the battery not charging
    sets [alertTriggered] back to false and leaves [chargingData] as it
    was; after it, whatever polls follow, one that finds the battery
    charging at or above the target comes with a call of [triggerAlert]
    at that poll or earlier in the new episode. *)
Theorem unplug_rearms (s : state) (r : reading) (now : Z) :
  isMonitoring s = true ->
  charging r = false ->
  alertTriggered (ingest r now s).1 = false
  /\ chargingData (ingest r now s).1 = chargingData s
  /\ (ingest r now s).2 = []
  /\ forall (later : list (reading * Z)) (r2 : reading) (now2 : Z),
       charging r2 = true -> reached_target s r2 = true ->
       1 <= alerts (run (ingest r now s).1 (later ++ [(r2, now2)])).2.
Proof.
  intros Hrun Hc.
  destruct (ingest_frame r now s) as [Hm Ht]. rewrite Hrun in Hm.
  assert (Harmed : alertTriggered (ingest r now s).1 = false).
  { rewrite (ingest_running r now s Hrun), (callback_unplugged _ _ _ Hc).
    reflexivity. }
  split; [exact Harmed |].
  split; [| split].
  - rewrite (ingest_running r now s Hrun), (callback_unplugged _ _ _ Hc).
    reflexivity.
  - rewrite (ingest_running r now s Hrun), (callback_unplugged _ _ _ Hc).
    reflexivity.
  - intros later r2 now2 Hc2 Hr2.
    set (s1 := (ingest r now s).1) in *.
    rewrite run_app. cbn [fst snd]. rewrite alerts_app.
    destruct (run_frame later s1) as [Hm2 Ht2]. rewrite Hm in Hm2.
    destruct (alertTriggered (run s1 later).1) eqn:Hmid.
    + destruct (run_armed_until_fired later s1 Hm Hmid) as [Habs | Hn];
        [congruence | lia].
    + rewrite run_cons. cbn [fst snd]. rewrite alerts_app.
      destruct (ingest_charging r2 now2 _ Hm2 Hc2) as (_ & _ & _ & Hn).
      rewrite (reached_target_ext (run s1 later).1 s r2) in Hn by congruence.
      rewrite Hr2, Hmid in Hn. simpl in Hn. lia.
Qed.

Lemma unplug_rearms_witness :
  alertTriggered
    (ingest (Reading 80 false) 4000 (session_after script_one_sample)).1 = false
  /\ chargingData
       (ingest (Reading 80 false) 4000 (session_after script_one_sample)).1
     = [Sample 80 2000].
Proof.
  destruct (unplug_rearms (session_after script_one_sample)
              (Reading 80 false) 4000 eq_refl eq_refl) as (Ha & Hd & _).
  split; [exact Ha | rewrite Hd; reflexivity].
Defined.

(** C2 as stated fails: a poll that finds the battery not charging does
    not clear the window. *)
Lemma unplug_keeps_window :
  isMonitoring (session_after script_one_sample) = true
  /\ chargingData
       (ingest (Reading 80 false) 4000 (session_after script_one_sample)).1
     <> [].
Proof. split; [reflexivity | discriminate]. Qed.

(** C10.  The poll at which the alert fires calls [triggerAlert] and
    nothing else; it sets [alertTriggered] and leaves the running flag,
    the target, the window and the estimate as they were; the interval
    stays installed, so the next poll runs the callback again. *)
Theorem alert_frame (s : state) (r : reading) (now : Z) :
  isMonitoring s = true ->
  charging r = true ->
  reached_target s r = true ->
  alertTriggered s = false ->
  (ingest r now s).2 = [TriggerAlert]
  /\ alertTriggered (ingest r now s).1 = true
  /\ isMonitoring (ingest r now s).1 = true
  /\ targetPercentage (ingest r now s).1 = targetPercentage s
  /\ chargingData (ingest r now s).1 = chargingData s
  /\ estimatedTime (ingest r now s).1 = estimatedTime s
  /\ forall (r2 : reading) (now2 : Z),
       ingest r2 now2 (ingest r now s).1 =
         intervalCallback r2 (setBattery r2 (ingest r now s).1) now2.
Proof.
  intros Hrun Hc Hr Harmed.
  assert (Hstep : ingest r now s = (triggerAlert (setBattery r s), [TriggerAlert])).
  { rewrite (ingest_running r now s Hrun).
    rewrite (callback_at_target r (setBattery r s) now Hc Hr).
    simpl. rewrite Harmed. reflexivity. }
  rewrite Hstep. simpl. repeat split; auto.
  intros r2 now2. apply ingest_running. exact Hrun.
Qed.

Lemma alert_frame_witness :
  (ingest (Reading 90 true) 2000 (session_after script_started)).2 = [TriggerAlert]
  /\ isMonitoring
       (ingest (Reading 90 true) 2000 (session_after script_started)).1 = true.
Proof.
  destruct (alert_frame (session_after script_started) (Reading 90 true) 2000
              eq_refl eq_refl eq_refl eq_refl) as (Hc & _ & Hm & _).
  split; [exact Hc | exact Hm].
Defined.

(** ** Rate and estimate *)


(** A list longer than 5 has a non-empty [slice(-10)], so [recentData[0]]
    is always defined where the callback reads it. *)
Lemma slice_last_nonempty (data : list sample) :
  5 < length data -> exists first rest, slice_last 10 data = first :: rest.
Proof.
  intros Hlen. destruct (slice_last 10 data) as [| first rest] eqn:E.
  - apply (f_equal length) in E. rewrite slice_last_length in E.
    cbn [length] in E. lia.
  - eauto.
Qed.

(** A poll that finds the battery charging below the target, unfolded. *)
Lemma ingest_below r now s :
  isMonitoring s = true -> charging r = true -> below_target s r = true ->
  ingest r now s =
    let pushed :=
      set_chargingData (push (chargingData s) (Sample (level r) now))
        (setBattery r s) in
    match chargeRate (chargingData s) (level r) now with
    | Some rate =>
        if gt0 rate then
          let minutes := estimatedMinutes (targetPercentage s) (level r) rate in
          (set_estimatedTime (Some minutes) pushed, [SetEstimatedTime minutes])
        else (pushed, [])
    | None => (pushed, [])
    end.
Proof.
  intros Hrun Hc Hb.
  assert (Hr : reached_target (setBattery r s) r = false).
  { rewrite below_not_reached in Hb. apply negb_true_iff in Hb. exact Hb. }
  rewrite (ingest_running r now s Hrun), (callback_below _ _ _ Hc Hr).
  unfold record_and_estimate.
  change (below_target (setBattery r s) r) with (below_target s r).
  rewrite Hc, Hb. reflexivity.
Qed.

Lemma le0_not_gt0 rate : le0 rate = true -> gt0 rate = false.
Proof.
  destruct rate as [q | | |]; simpl; try congruence.
  unfold Qlt_bool. intros ->. reflexivity.
Qed.

Lemma Qlt_bool_true a b : (a < b)%Q -> Qlt_bool a b = true.
Proof.
  intros Hlt. unfold Qlt_bool. destruct (Qle_bool b a) eqn:E; [| reflexivity].
  apply Qle_bool_iff in E. exfalso. exact (Qlt_not_le _ _ Hlt E).
Qed.

Lemma Qeq_bool_pos q : (0 < q)%Q -> Qeq_bool q 0 = false.
Proof.
  intros Hpos. destruct (Qeq_bool q 0) eqn:E; [| reflexivity].
  apply Qeq_bool_eq in E. rewrite E in Hpos.
  exfalso. exact (Qlt_irrefl 0 Hpos).
Qed.

(** With a positive finite rate the estimate is the ceiling of the
    quotient. *)
Lemma estimatedMinutes_finite target lvl q :
  (0 < q)%Q ->
  estimatedMinutes target lvl (Fin q) =
    Fin (inject_Z (Qceiling ((inject_Z target - lvl) / q))).
Proof.
  intros Hpos. unfold estimatedMinutes, div, ceil.
  rewrite (Qeq_bool_pos q Hpos). reflexivity.
Qed.

Lemma Qceiling_pos x : (0 < x)%Q -> (0 < Qceiling x)%Z.
Proof.
  intros Hpos. rewrite Zlt_Qlt.
  apply Qlt_le_trans with x; [exact Hpos | apply Qle_ceiling].
Qed.

(** C7.  When a poll finds the battery charging below the target and the
    rate the callback computes is not above zero, [setEstimatedTime] is
    not called and [estimatedTime] keeps the value it had. *)
Theorem stalled_keeps_estimate (s : state) (r : reading) (now : Z) (rate : jsnum) :
  isMonitoring s = true ->
  charging r = true ->
  below_target s r = true ->
  chargeRate (chargingData s) (level r) now = Some rate ->
  le0 rate = true ->
  (ingest r now s).2 = []
  /\ estimatedTime (ingest r now s).1 = estimatedTime s.
Proof.
  intros Hrun Hc Hb Hrate Hle.
  rewrite (ingest_below r now s Hrun Hc Hb), Hrate. cbn zeta.
  rewrite (le0_not_gt0 rate Hle). split; reflexivity.
Qed.

Lemma stalled_keeps_estimate_witness :
  (ingest (Reading 69 true) 12000 (session_after script_six_flat)).2 = []
  /\ estimatedTime
       (ingest (Reading 69 true) 12000 (session_after script_six_flat)).1 = None.
Proof.
  apply (stalled_keeps_estimate (session_after script_six_flat)
           (Reading 69 true) 12000
           (Fin (levelDiff 69 (Sample 69 0) / timeDiff 12000 (Sample 69 0))));
    reflexivity.
Defined.

Lemma Qlt_bool_false a b : (b <= a)%Q -> Qlt_bool a b = false.
Proof.
  intros Hle. unfold Qlt_bool. apply Qle_bool_iff in Hle.
  rewrite Hle. reflexivity.
Qed.

Lemma timeDiff_same first : Qeq_bool (timeDiff (s_time first) first) 0 = true.
Proof. unfold timeDiff. rewrite Z.sub_diag. reflexivity. Qed.

Lemma levelDiff_pos lvl first :
  (s_level first < lvl)%Q -> (0 < levelDiff lvl first)%Q.
Proof. intros Hlt. unfold levelDiff. apply Qlt_minus_iff in Hlt. exact Hlt. Qed.

Lemma levelDiff_neg lvl first :
  (lvl < s_level first)%Q -> (levelDiff lvl first < 0)%Q.
Proof.
  intros Hlt. unfold levelDiff.
  rewrite <- (Qplus_opp_r (s_level first)).
  apply Qplus_lt_l. exact Hlt.
Qed.

Lemma levelDiff_zero lvl first :
  (lvl == s_level first)%Q -> (levelDiff lvl first == 0)%Q.
Proof. intros Heq. unfold levelDiff. rewrite Heq. apply Qplus_opp_r. Qed.

(** C5, as the code has it.  The division is not guarded: when the oldest
    sample of the slice carries the current time, the rate is [Infinity]
    if the level rose, [-Infinity] if it fell, and [NaN] if it did not
    change, never [None].  [Infinity] passes the test [chargeRate > 0]
    and the callback calls [setEstimatedTime(0)]; in the other two cases
    the estimate is left alone. *)
Theorem zero_elapsed_rate (s : state) (r : reading) (now : Z)
    (first : sample) (rest : list sample) :
  isMonitoring s = true ->
  charging r = true ->
  below_target s r = true ->
  5 < length (chargingData s) ->
  slice_last 10 (chargingData s) = first :: rest ->
  s_time first = now ->
  ((s_level first < level r)%Q ->
     chargeRate (chargingData s) (level r) now = Some PInf
     /\ (ingest r now s).2 = [SetEstimatedTime (Fin 0)]
     /\ estimatedTime (ingest r now s).1 = Some (Fin 0))
  /\ ((level r < s_level first)%Q ->
     chargeRate (chargingData s) (level r) now = Some NInf
     /\ (ingest r now s).2 = []
     /\ estimatedTime (ingest r now s).1 = estimatedTime s)
  /\ ((level r == s_level first)%Q ->
     chargeRate (chargingData s) (level r) now = Some NaN
     /\ (ingest r now s).2 = []
     /\ estimatedTime (ingest r now s).1 = estimatedTime s).
Proof.
  intros Hrun Hc Hb Hlen Hslice Htime. subst now.
  assert (Hrate : chargeRate (chargingData s) (level r) (s_time first) =
                  Some (div (Fin (levelDiff (level r) first)) (Fin 0))).
  { unfold chargeRate. apply Nat.ltb_lt in Hlen. rewrite Hlen, Hslice.
    unfold div. rewrite timeDiff_same. reflexivity. }
  rewrite (ingest_below r _ s Hrun Hc Hb), Hrate. cbn zeta.
  unfold div. change (Qeq_bool 0 0) with true. cbn iota.
  split; [| split].
  - intros Hup. rewrite (Qlt_bool_true _ _ (levelDiff_pos _ _ Hup)).
    repeat split.
  - intros Hdown. pose proof (levelDiff_neg _ _ Hdown) as Hneg.
    rewrite (Qlt_bool_false _ _ (Qlt_le_weak _ _ Hneg)).
    rewrite (Qlt_bool_true _ _ Hneg). repeat split.
  - intros Hsame. pose proof (levelDiff_zero _ _ Hsame) as Hz.
    rewrite !Qlt_bool_false by (rewrite Hz; apply Qle_refl).
    repeat split.
Qed.

Lemma zero_elapsed_rate_witness :
  chargeRate (chargingData (session_after script_six_rising)) 56 0 = Some PInf
  /\ (ingest (Reading 56 true) 0 (session_after script_six_rising)).2
     = [SetEstimatedTime (Fin 0)].
Proof.
  assert (Hlen : 5 < length (chargingData (session_after script_six_rising)))
    by (vm_compute; lia).
  assert (Hup : (s_level (Sample 50 0) < level (Reading 56 true))%Q)
    by reflexivity.
  destruct (zero_elapsed_rate (session_after script_six_rising)
              (Reading 56 true) 0 (Sample 50 0)
              [Sample 51 2000; Sample 52 4000; Sample 53 6000;
               Sample 54 8000; Sample 55 10000]
              eq_refl eq_refl eq_refl Hlen eq_refl eq_refl) as [Hrise _].
  destruct (Hrise Hup) as (Hrate & Hcalls & _).
  split; [exact Hrate | exact Hcalls].
Defined.

(** C5 as stated fails.  Six samples from 0 ms on, then a poll whose
    clock reads 0 ms again at a higher level: no time has elapsed since
    the oldest sample of the slice, yet the rate is [Infinity], not
    [None], and that poll sets the estimate to 0. *)
Lemma zero_elapsed_not_guarded :
  head (slice_last 10 (chargingData (session_after script_six_rising)))
    = Some (Sample 50 0)
  /\ (timeDiff 0 (Sample 50 0) == 0)%Q
  /\ chargeRate (chargingData (session_after script_six_rising)) 56 0 <> None
  /\ chargeRate (chargingData (session_after script_six_rising)) 56 0 = Some PInf
  /\ (ingest (Reading 56 true) 0 (session_after script_six_rising)).2
     = [SetEstimatedTime (Fin 0)].
Proof.
  split; [vm_compute; reflexivity |].
  split; [vm_compute; reflexivity |].
  split; [vm_compute; discriminate |].
  split; vm_compute; reflexivity.
Qed.

(** ** Starting and stopping *)

(** While the session is idle there is no estimate: the first render has
    none, [stopMonitoring] clears it, and only the interval sets it. *)
Lemma idle_no_estimate s :
  reachable s -> isMonitoring s = false -> estimatedTime s = None.
Proof.
  induction 1 as [| s e Hreach IH Hen]; intros Hidle; [reflexivity |].
  destruct e as [r | t | | | now]; simpl in Hen, Hidle |- *.
  - auto.
  - auto.
  - apply negb_true_iff in Hen. unfold startMonitoring in *.
    destruct (battery s); simpl in *; [discriminate | auto].
  - reflexivity.
  - apply andb_true_iff in Hen as [Hrun _].
    rewrite tick_frame in Hidle. congruence.
Qed.

Lemma exec_reachable es : forall s s',
  reachable s -> exec es s = Some s' -> reachable s'.
Proof.
  induction es as [| e es IH]; intros s s' Hreach Hexec; simpl in Hexec.
  - injection Hexec as <-. exact Hreach.
  - destruct (enabled e s) eqn:Hen; [| discriminate].
    apply (IH (step e s)); [apply reachable_step; assumption | exact Hexec].
Qed.

Lemma session_after_reachable es : reachable (session_after es).
Proof.
  unfold session_after. destruct (exec es initial) as [s |] eqn:E; simpl.
  - apply (exec_reachable es initial s); [apply reachable_initial | exact E].
  - apply reachable_initial.
Qed.

(** C9.  Whenever the page offers the start button, a [startMonitoring]
    that finds a battery reading starts monitoring with an empty window,
    the alert armed and no estimate; one that finds none sets the notice
    'Battery API not available' and does not start monitoring. *)
Theorem start_resets (s : state) :
  reachable s ->
  enabled ClickStart s = true ->
  (forall b : reading, battery s = Some b ->
     isMonitoring (startMonitoring s) = true
     /\ chargingData (startMonitoring s) = []
     /\ alertTriggered (startMonitoring s) = false
     /\ estimatedTime (startMonitoring s) = None)
  /\ (battery s = None ->
     isMonitoring (startMonitoring s) = false
     /\ notification (startMonitoring s) = BatteryApiNotAvailable).
Proof.
  intros Hreach Hen. simpl in Hen. apply negb_true_iff in Hen.
  pose proof (idle_no_estimate s Hreach Hen) as Hest.
  unfold startMonitoring. split.
  - intros b Hb. rewrite Hb. simpl. auto.
  - intros Hb. rewrite Hb. simpl. auto.
Qed.

Lemma start_resets_witness :
  length (chargingData (session_after script_stopped)) = 7
  /\ chargingData (startMonitoring (session_after script_stopped)) = []
  /\ estimatedTime (startMonitoring (session_after script_stopped)) = None.
Proof.
  destruct (start_resets (session_after script_stopped)
              (session_after_reachable script_stopped) eq_refl) as [Hsome _].
  destruct (Hsome (Reading 70 true) eq_refl) as (_ & Hd & _ & He).
  split; [reflexivity |]. split; [exact Hd | exact He].
Defined.

(** ** Invariants of the component *)

Lemma Qlt_bool_lt a b : Qlt_bool a b = true -> (a < b)%Q.
Proof.
  unfold Qlt_bool. rewrite negb_true_iff. intros Hf.
  apply Qnot_le_lt. intros Hle. apply Qle_bool_iff in Hle. congruence.
Qed.

(** What the callback does to the battery, the window and the estimate:
    the battery is never written; the window is either left alone or gets
    the current reading pushed, the latter only when charging below the
    target; the estimate is either left alone or set to the minutes
    computed from a rate above zero, with the one matching call. *)
Lemma callback_writes b s now :
  battery (intervalCallback b s now).1 = battery s
  /\ (chargingData (intervalCallback b s now).1 = chargingData s
      \/ (charging b = true /\ below_target s b = true
          /\ chargingData (intervalCallback b s now).1
             = push (chargingData s) (Sample (level b) now)))
  /\ ((estimatedTime (intervalCallback b s now).1 = estimatedTime s
       /\ estimates (intervalCallback b s now).2 = 0)
      \/ (exists rate,
            charging b = true /\ below_target s b = true
            /\ chargeRate (chargingData s) (level b) now = Some rate
            /\ gt0 rate = true
            /\ estimatedTime (intervalCallback b s now).1
               = Some (estimatedMinutes (targetPercentage s) (level b) rate)
            /\ (intervalCallback b s now).2
               = [SetEstimatedTime
                    (estimatedMinutes (targetPercentage s) (level b) rate)])).
Proof.
  destruct (charging b) eqn:Hc.
  - destruct (reached_target s b) eqn:Hr.
    + rewrite (callback_at_target _ _ _ Hc Hr).
      destruct (alertTriggered s); simpl; auto.
    + rewrite (callback_below _ _ _ Hc Hr). unfold record_and_estimate.
      rewrite below_not_reached, Hc, Hr. cbn [negb andb].
      destruct (chargeRate (chargingData s) (level b) now) as [rate |] eqn:Hrate;
        [| simpl; auto 10].
      destruct (gt0 rate) eqn:Hgt; [| simpl; auto 10].
      simpl. split; [reflexivity |]. split; [auto |].
      right. exists rate. auto 10.
  - rewrite (callback_unplugged _ _ _ Hc). simpl. auto.
Qed.

Lemma push_length_le w x : length (push w x) <= S (length w).
Proof.
  unfold push. destruct (50 <? length (w ++ [x])).
  - rewrite length_drop, length_app. simpl. lia.
  - rewrite length_app. simpl. lia.
Qed.

Lemma push_Forall (P : sample -> Prop) w x :
  Forall P w -> P x -> Forall P (push w x).
Proof.
  intros Hw Hx. unfold push.
  assert (Hall : Forall P (w ++ [x])) by (apply Forall_app; auto).
  destruct (50 <? length (w ++ [x])); [apply Forall_drop |]; exact Hall.
Qed.

(** X1.  In every state the component can reach, the window holds at most
    50 samples. *)
Theorem reachable_window_bound (s : state) :
  reachable s -> length (chargingData s) <= 50.
Proof.
  induction 1 as [| s e Hreach IH Hen]; [simpl; lia |].
  destruct e as [r | t | | | now]; simpl; try exact IH.
  - unfold startMonitoring. destruct (battery s); simpl; [lia | exact IH].
  - unfold tick. destruct (isMonitoring s); [| exact IH].
    destruct (battery s) as [b |]; [| exact IH].
    destruct (callback_writes b s now) as (_ & [Hsame | (_ & _ & Hpush)] & _).
    + rewrite Hsame. exact IH.
    + rewrite Hpush. apply push_length. exact IH.
Qed.

Lemma reachable_window_bound_witness :
  length (chargingData (session_after script_ten)) <= 50.
Proof.
  apply (reachable_window_bound (session_after script_ten)
           (session_after_reachable script_ten)).
Defined.

(** X2.  Monitoring never runs without a battery reading: in every
    reachable state with [isMonitoring] set, [battery] is not null, so
    the interval is installed. *)
Theorem monitoring_has_battery (s : state) :
  reachable s -> isMonitoring s = true ->
  exists b : reading, battery s = Some b /\ tick s = intervalCallback b s.
Proof.
  intros Hreach Hrun.
  assert (Hbat : exists b, battery s = Some b).
  { induction Hreach as [| s e Hreach IH Hen]; [discriminate |].
    destruct e as [r | t | | | now]; simpl in Hen, Hrun |- *.
    - eauto.
    - auto.
    - unfold startMonitoring in *.
      destruct (battery s) as [b |] eqn:Hb; simpl in *; [eauto |].
      apply negb_true_iff in Hen. congruence.
    - discriminate.
    - rewrite tick_frame in Hrun. destruct (IH Hrun) as [b Hb].
      unfold tick. rewrite Hrun, Hb.
      destruct (callback_writes b s now) as (Hbat & _).
      rewrite Hbat. eauto. }
  destruct Hbat as [b Hb]. exists b. split; [exact Hb |].
  unfold tick. rewrite Hrun, Hb. reflexivity.
Qed.

Lemma monitoring_has_battery_witness :
  exists b : reading,
    battery (session_after script_started) = Some b
    /\ tick (session_after script_started)
       = intervalCallback b (session_after script_started).
Proof.
  apply (monitoring_has_battery (session_after script_started)
           (session_after_reachable script_started)).
  reflexivity.
Defined.

(** X3.  While monitoring, every sample in the window was taken below the
    target the session runs with. *)
Theorem window_below_target (s : state) :
  reachable s -> isMonitoring s = true ->
  Forall (fun x : sample => (s_level x < inject_Z (targetPercentage s))%Q)
    (chargingData s).
Proof.
  induction 1 as [| s e Hreach IH Hen]; intros Hrun; [discriminate |].
  destruct e as [r | t | | | now]; simpl in Hen, Hrun |- *.
  - auto.
  - apply negb_true_iff in Hen. congruence.
  - unfold startMonitoring in *.
    destruct (battery s); simpl in *; [constructor |].
    apply negb_true_iff in Hen. congruence.
  - discriminate.
  - rewrite tick_frame in Hrun. specialize (IH Hrun).
    unfold tick. rewrite Hrun. destruct (battery s) as [b |]; [| exact IH].
    destruct (callback_frame b s now) as [_ Ht]. rewrite Ht.
    destruct (callback_writes b s now) as (_ & [Hsame | (_ & Hb & Hpush)] & _).
    + rewrite Hsame. exact IH.
    + rewrite Hpush. apply push_Forall; [exact IH |].
      apply below_target_spec in Hb. exact Hb.
Qed.

Lemma window_below_target_witness :
  Forall (fun x : sample => (s_level x < 90)%Q)
    (chargingData (session_after script_ten)).
Proof.
  apply (window_below_target (session_after script_ten)
           (session_after_reachable script_ten)).
  reflexivity.
Defined.

(** The minutes computed from a rate above zero, below the target, are a
    whole number that is not negative. *)
Lemma estimatedMinutes_whole target lvl rate :
  gt0 rate = true -> (lvl < inject_Z target)%Q ->
  exists n : Z, (0 <= n)%Z /\ estimatedMinutes target lvl rate = Fin (inject_Z n).
Proof.
  intros Hgt Hlt. destruct rate as [q | | |]; simpl in Hgt; try discriminate.
  - apply Qlt_bool_lt in Hgt.
    rewrite (estimatedMinutes_finite _ _ _ Hgt).
    eexists. split; [| reflexivity].
    apply Z.lt_le_incl, Qceiling_pos, Qlt_shift_div_l; [exact Hgt |].
    rewrite Qmult_0_l, <- (Qplus_opp_r lvl).
    apply Qplus_lt_l. exact Hlt.
  - exists 0%Z. split; [lia | reflexivity].
Qed.

(** With exact quotients, which never overflow, the estimates the
    callback stores are whole and not negative. *)
Lemma reachable_estimate_whole (s : state) :
  reachable s ->
  estimatedTime s = None
  \/ exists n : Z, (0 <= n)%Z /\ estimatedTime s = Some (Fin (inject_Z n)).
Proof.
  induction 1 as [| s e Hreach IH Hen]; [left; reflexivity |].
  destruct e as [r | t | | | now]; simpl; try exact IH.
  - unfold startMonitoring. destruct (battery s); exact IH.
  - left. reflexivity.
  - unfold tick. destruct (isMonitoring s); [| exact IH].
    destruct (battery s) as [b |]; [| exact IH].
    destruct (callback_writes b s now)
      as (_ & _ & [[Hsame _] | (rate & _ & Hb & _ & Hgt & Hset & _)]).
    + rewrite Hsame. exact IH.
    + right. rewrite Hset. apply below_target_spec in Hb.
      destruct (estimatedMinutes_whole _ _ _ Hgt Hb) as (n & Hn & ->).
      eauto.
Qed.

(** X5.  While monitoring, nothing the page offers changes the target:
    the slider is disabled and no other handler writes it. *)
Theorem target_fixed_while_monitoring (s : state) (e : event) :
  isMonitoring s = true -> enabled e s = true ->
  targetPercentage (step e s) = targetPercentage s.
Proof.
  intros Hrun Hen. destruct e as [r | t | | | now]; simpl in Hen |- *.
  - reflexivity.
  - rewrite Hrun in Hen. discriminate.
  - rewrite Hrun in Hen. discriminate.
  - reflexivity.
  - unfold tick. rewrite Hrun. destruct (battery s) as [b |]; [| reflexivity].
    apply callback_frame.
Qed.

Lemma target_fixed_while_monitoring_witness :
  targetPercentage (step (IntervalTick 2000) (session_after script_started)) = 90%Z.
Proof.
  rewrite (target_fixed_while_monitoring (session_after script_started)
             (IntervalTick 2000) eq_refl eq_refl).
  reflexivity.
Defined.

Lemma chargeRate_short data lvl now :
  length data <= 5 -> chargeRate data lvl now = None.
Proof.
  intros Hle. unfold chargeRate.
  destruct (Nat.ltb_spec 5 (length data)); [lia | reflexivity].
Qed.

(** A poll adds at most one sample, and sets no estimate while the window
    it finds holds 5 samples or fewer. *)
Lemma ingest_short r now s :
  length (chargingData (ingest r now s).1) <= S (length (chargingData s))
  /\ (length (chargingData s) <= 5 ->
      estimates (ingest r now s).2 = 0
      /\ estimatedTime (ingest r now s).1 = estimatedTime s).
Proof.
  destruct (isMonitoring s) eqn:Hrun.
  - rewrite (ingest_running r now s Hrun).
    destruct (callback_writes r (setBattery r s) now) as (_ & Hdata & Hest).
    simpl in Hdata, Hest. split.
    + destruct Hdata as [-> | (_ & _ & ->)]; [lia | apply push_length_le].
    + intros Hshort.
      destruct Hest as [[Hsame Hnone] | (rate & _ & _ & Hrate & _)]; [auto |].
      rewrite (chargeRate_short _ _ _ Hshort) in Hrate. discriminate.
  - rewrite (ingest_idle r now s Hrun). simpl. split; [lia | auto].
Qed.

Lemma estimates_app c1 c2 : estimates (c1 ++ c2) = estimates c1 + estimates c2.
Proof. unfold estimates. rewrite filter_app, length_app. reflexivity. Qed.

(** X6.  No estimate comes out of a short history: as long as the samples
    already in the window and the polls made together number at most 6,
    [setEstimatedTime] is never called and the estimate keeps its value.
    After a start, which empties the window, the first six polls
    therefore give no estimate. *)
Theorem no_estimate_before_six (polls : list (reading * Z)) : forall s : state,
  length (chargingData s) + length polls <= 6 ->
  estimates (run s polls).2 = 0
  /\ estimatedTime (run s polls).1 = estimatedTime s.
Proof.
  induction polls as [| [r now] rest IH]; intros s Hlen; [simpl; auto |].
  cbn [length] in Hlen.
  destruct (ingest_short r now s) as [Hgrow Hquiet].
  destruct Hquiet as [Hnone Hsame]; [lia |].
  rewrite run_cons. cbn [fst snd]. rewrite estimates_app.
  destruct (IH (ingest r now s).1) as [Hn He]; [lia |].
  rewrite Hnone, Hn, He, Hsame. auto.
Qed.

Lemma no_estimate_before_six_witness :
  estimates (run (session_after script_started) polls_six).2 = 0
  /\ estimatedTime (run (session_after script_started) polls_six).1 = None.
Proof.
  assert (Hlen : length (chargingData (session_after script_started))
                 + length polls_six <= 6) by (vm_compute; lia).
  destruct (no_estimate_before_six polls_six (session_after script_started) Hlen)
    as [Hn He].
  split; [exact Hn | rewrite He; reflexivity].
Defined.

(** X7.  While the session is idle, battery changes do nothing but update
    the reading: no call is made, and the alert flag, the window, the
    estimate, the target and the notice all stay as they were.  In
    particular an alert that has fired stays shown after a stop. *)
Theorem idle_run_is_silent (polls : list (reading * Z)) : forall s : state,
  isMonitoring s = false ->
  (run s polls).2 = []
  /\ isMonitoring (run s polls).1 = false
  /\ alertTriggered (run s polls).1 = alertTriggered s
  /\ chargingData (run s polls).1 = chargingData s
  /\ estimatedTime (run s polls).1 = estimatedTime s
  /\ targetPercentage (run s polls).1 = targetPercentage s
  /\ notification (run s polls).1 = notification s.
Proof.
  induction polls as [| [r now] rest IH]; intros s Hidle; [simpl; auto 10 |].
  rewrite run_cons, (ingest_idle r now s Hidle). cbn [fst snd].
  destruct (IH (setBattery r s) Hidle) as (Hc & Hm & Ha & Hd & He & Ht & Hn).
  rewrite Hc, Hm, Ha, Hd, He, Ht, Hn. simpl. auto 10.
Qed.

Lemma idle_run_is_silent_witness :
  (run (session_after script_stopped) polls_episode).2 = []
  /\ chargingData (run (session_after script_stopped) polls_episode).1
     = chargingData (session_after script_stopped).
Proof.
  destruct (idle_run_is_silent polls_episode (session_after script_stopped) eq_refl)
    as (Hc & _ & _ & Hd & _).
  split; [exact Hc | exact Hd].
Defined.

(** X8.  Stopping and starting again gives a fresh session from any
    state with a battery reading: monitoring, an empty window, the alert
    armed, no estimate, and the target kept. *)
Theorem restart_is_fresh (s : state) (b : reading) :
  battery s = Some b ->
  isMonitoring (startMonitoring (stopMonitoring s)) = true
  /\ chargingData (startMonitoring (stopMonitoring s)) = []
  /\ alertTriggered (startMonitoring (stopMonitoring s)) = false
  /\ estimatedTime (startMonitoring (stopMonitoring s)) = None
  /\ targetPercentage (startMonitoring (stopMonitoring s)) = targetPercentage s
  /\ battery (startMonitoring (stopMonitoring s)) = Some b.
Proof.
  intros Hb. unfold startMonitoring, stopMonitoring. simpl. rewrite Hb. simpl.
  auto 10.
Qed.

Lemma restart_is_fresh_witness :
  chargingData (startMonitoring (stopMonitoring (session_after script_estimated)))
    = []
  /\ estimatedTime
       (startMonitoring (stopMonitoring (session_after script_estimated))) = None.
Proof.
  destruct (restart_is_fresh (session_after script_estimated) (Reading 70 true)
              eq_refl) as (_ & Hd & _ & He & _).
  split; [exact Hd | exact He].
Defined.

(** ** The estimate as a number *)









(** ** What the page shows *)

Lemma Qeq_bool_inject n m : Qeq_bool (inject_Z n) (inject_Z m) = (n =? m)%Z.
Proof. unfold Qeq_bool, inject_Z. simpl. rewrite !Z.mul_1_r. reflexivity. Qed.

Lemma Qle_bool_inject n m : Qle_bool (inject_Z n) (inject_Z m) = (n <=? m)%Z.
Proof. unfold Qle_bool, inject_Z. simpl. rewrite !Z.mul_1_r. reflexivity. Qed.

Lemma Qlt_bool_inject n m : Qlt_bool (inject_Z n) (inject_Z m) = (n <? m)%Z.
Proof. unfold Qlt_bool. rewrite Qle_bool_inject. symmetry. apply Z.ltb_antisym. Qed.

Lemma Qfloor_over_60 n : Qfloor (inject_Z n / 60) = (n / 60)%Z.
Proof. unfold Qfloor, Qdiv, Qmult, Qinv, inject_Z. simpl. rewrite Z.mul_1_r. reflexivity. Qed.

(** [formatTime] on a whole number that is not negative. *)
Lemma formatTime_on_whole (n : Z) :
  (0 <= n)%Z ->
  formatTime (Some (Fin (inject_Z n))) =
    (if (n =? 0)%Z then Calculating
     else if (n <? 60)%Z then MinutesOnly (Fin (inject_Z n))
     else HoursMinutes (Fin (inject_Z (n / 60))) (Fin (inject_Z (n mod 60))))
  /\ (0 <= n mod 60 < 60)%Z
  /\ (60 * (n / 60) + n mod 60 = n)%Z.
Proof.
  intros Hn.
  split; [| split; [apply Z.mod_pos_bound; lia | symmetry; apply Z.div_mod; lia]].
  unfold formatTime, falsy, lt.
  change 0%Q with (inject_Z 0). change 1%Q with (inject_Z 1).
  change 60%Q with (inject_Z 60).
  rewrite Qeq_bool_inject, !Qlt_bool_inject.
  destruct (Z.eqb_spec n 0) as [Hz | Hnz]; [reflexivity |].
  destruct (Z.ltb_spec n 1) as [Hlt1 | _]; [lia |].
  destruct (Z.ltb_spec n 60) as [Hlt60 | Hge60]; [reflexivity |].
  cbn zeta. f_equal.
  - unfold floor, div. change (Qeq_bool (inject_Z 60) 0) with false. cbn iota.
    rewrite Qfloor_over_60. reflexivity.
  - unfold rem. change (Qeq_bool (inject_Z 60) 0) with false. cbn iota.
    unfold Qtrunc.
    assert (Hpos : Qle_bool 0 (inject_Z n / inject_Z 60) = true).
    { apply Qle_bool_iff. apply Qle_shift_div_l; [reflexivity |].
      rewrite Qmult_0_l. change 0%Q with (inject_Z 0).
      rewrite <- Zle_Qle. exact Hn. }
    rewrite Hpos, Qfloor_over_60.
    unfold Qminus, Qplus, Qopp, Qmult, inject_Z. simpl.
    f_equal. f_equal. rewrite Z.mod_eq by lia. lia.
Qed.




(** X12.  In every reachable state the estimate line, when it is shown,
    never reads 'Less than 1 min': that branch of [formatTime] is not
    reached by the estimates the callback stores. *)
Theorem estimate_line_never_less_than_one (s : state) :
  reachable s -> estimateLine s <> Some LessThanOneMin.
Proof.
  intros Hreach. unfold estimateLine.
  destruct (isMonitoring s && batteryCharging s
            && bool_decide (is_Some (estimatedTime s))); [| discriminate].
  destruct (reachable_estimate_whole s Hreach) as [-> | (n & Hn & ->)];
    [simpl; discriminate |].
  destruct (formatTime_on_whole n Hn) as [-> _].
  destruct (n =? 0)%Z; [discriminate |].
  destruct (n <? 60)%Z; discriminate.
Qed.

Lemma estimate_line_never_less_than_one_witness :
  estimateLine (session_after script_estimated) <> Some LessThanOneMin.
Proof.
  apply (estimate_line_never_less_than_one (session_after script_estimated)
           (session_after_reachable script_estimated)).
Defined.

Lemma Qfloor_unique (x : Q) (t : Z) :
  (inject_Z t <= x)%Q -> (x < inject_Z (t + 1))%Q -> Qfloor x = t.
Proof.
  intros Hlo Hhi.
  assert (H1 : (t <= Qfloor x)%Z).
  { rewrite <- (Qfloor_Z t). apply Qfloor_resp_le. exact Hlo. }
  assert (H2 : (Qfloor x < t + 1)%Z).
  { rewrite Zlt_Qlt. apply Qle_lt_trans with x; [apply Qfloor_le | exact Hhi]. }
  lia.
Qed.

Lemma ingest_battery r now s : battery (ingest r now s).1 = Some r.
Proof.
  destruct (isMonitoring s) eqn:Hrun.
  - rewrite (ingest_running r now s Hrun).
    destruct (callback_writes r (setBattery r s) now) as (Hbat & _).
    rewrite Hbat. reflexivity.
  - rewrite (ingest_idle r now s Hrun). reflexivity.
Qed.

(** X13.  The page rounds the level it shows, the alert test does not:
    a poll whose level is within half a unit below the target shows the
    target as the battery percentage and yet fires no alert. *)
Theorem display_rounds_alert_does_not (s : state) (r : reading) (now : Z) :
  (inject_Z (targetPercentage s) - (1 # 2) <= level r)%Q ->
  (level r < inject_Z (targetPercentage s))%Q ->
  displayedPercent (ingest r now s).1 = Some (Fin (inject_Z (targetPercentage s)))
  /\ alerts (ingest r now s).2 = 0.
Proof.
  intros Hlo Hhi. split.
  - unfold displayedPercent. rewrite ingest_battery. unfold round.
    rewrite (Qfloor_unique (level r + (1 # 2)) (targetPercentage s)).
    + reflexivity.
    + lra.
    + rewrite inject_Z_plus. change (inject_Z 1) with 1%Q. lra.
  - assert (Hr : reached_target s r = false).
    { destruct (reached_target s r) eqn:E; [| reflexivity].
      apply reached_target_spec in E. lra. }
    destruct (isMonitoring s) eqn:Hrun;
      [| rewrite (ingest_idle r now s Hrun); reflexivity].
    destruct (charging r) eqn:Hc.
    + destruct (ingest_charging r now s Hrun Hc) as (_ & _ & _ & Hn).
      rewrite Hr in Hn. exact Hn.
    + rewrite (ingest_running r now s Hrun), (callback_unplugged _ _ _ Hc).
      reflexivity.
Qed.

Lemma display_rounds_alert_does_not_witness :
  displayedPercent
    (ingest (Reading (179 # 2) true) 2000 (session_after script_started)).1
    = Some (Fin (inject_Z 90))
  /\ alerts
       (ingest (Reading (179 # 2) true) 2000 (session_after script_started)).2 = 0.
Proof.
  assert (Hlo : (inject_Z (targetPercentage (session_after script_started))
                 - (1 # 2) <= level (Reading (179 # 2) true))%Q)
    by (vm_compute; discriminate).
  assert (Hhi : (level (Reading (179 # 2) true)
                 < inject_Z (targetPercentage (session_after script_started)))%Q)
    by reflexivity.
  apply (display_rounds_alert_does_not (session_after script_started)
           (Reading (179 # 2) true) 2000 Hlo Hhi).
Defined.

(** X14.  For a battery level between 0 and 1, the stored reading is
    between 0 and 100 and the page shows a whole percentage between 0
    and 100. *)
Theorem displayed_percent_in_range (s : state) (batLevel : Q) (c : bool) :
  (0 <= batLevel)%Q -> (batLevel <= 1)%Q ->
  (0 <= level (readBattery batLevel c) <= 100)%Q
  /\ exists p : Z,
       displayedPercent (setBattery (readBattery batLevel c) s)
         = Some (Fin (inject_Z p))
       /\ (0 <= p <= 100)%Z.
Proof.
  intros Hlo Hhi. unfold readBattery. cbn [level].
  assert (Hrange : (0 <= batLevel * 100 <= 100)%Q) by (split; lra).
  split; [exact Hrange |].
  unfold displayedPercent, setBattery, round. cbn [battery level].
  exists (Qfloor (batLevel * 100 + (1 # 2))). split; [reflexivity |]. split.
  - rewrite <- (Qfloor_Z 0) at 1. apply Qfloor_resp_le.
    change (inject_Z 0) with 0%Q. lra.
  - change 100%Z with (Qfloor (100 + (1 # 2))) at 2. apply Qfloor_resp_le. lra.
Qed.

Lemma displayed_percent_in_range_witness :
  exists p : Z,
    displayedPercent (setBattery (readBattery (57 # 100) true) initial)
      = Some (Fin (inject_Z p))
    /\ (0 <= p <= 100)%Z.
Proof.
  assert (Hlo : (0 <= 57 # 100)%Q) by (vm_compute; discriminate).
  assert (Hhi : (57 # 100 <= 1)%Q) by (vm_compute; discriminate).
  destruct (displayed_percent_in_range initial (57 # 100) true Hlo Hhi)
    as [_ Hshown].
  exact Hshown.
Defined.

(** ** Time order of the window *)

Lemma push_time_ordered w x :
  time_ordered w -> not_after (s_time x) w -> time_ordered (push w x).
Proof.
  intros Hsorted Hbefore. unfold push.
  assert (Hall : time_ordered (w ++ [x])).
  { apply StronglySorted_app_2.
    - intros a c Ha Hc. apply list_elem_of_singleton in Hc. subst c.
      unfold not_after in Hbefore. rewrite Forall_forall in Hbefore. auto.
    - exact Hsorted.
    - repeat constructor. }
  destruct (50 <? length (w ++ [x])); [| exact Hall].
  destruct (w ++ [x]) as [| a l]; [constructor |].
  apply StronglySorted_cons in Hall as [_ Htail]. exact Htail.
Qed.

(** The window after a poll is the window before it, or that with the
    poll's own sample pushed. *)
Lemma ingest_window r now s :
  chargingData (ingest r now s).1 = chargingData s
  \/ chargingData (ingest r now s).1 = push (chargingData s) (Sample (level r) now).
Proof.
  destruct (isMonitoring s) eqn:Hrun.
  - rewrite (ingest_running r now s Hrun).
    destruct (callback_writes r (setBattery r s) now)
      as (_ & [Hsame | (_ & _ & Hpush)] & _); auto.
  - rewrite (ingest_idle r now s Hrun). auto.
Qed.

(** X15.  When the clock never runs backwards (the polls come in the
    order of their times, none before a sample already stored), the
    window stays in the order of its sample times. *)
Theorem clock_keeps_time_order (polls : list (reading * Z)) : forall s : state,
  time_ordered (chargingData s) ->
  Forall (fun p : reading * Z => not_after p.2 (chargingData s)) polls ->
  StronglySorted (fun p q : reading * Z => (p.2 <= q.2)%Z) polls ->
  time_ordered (chargingData (run s polls).1).
Proof.
  induction polls as [| [r now] rest IH]; intros s Hsorted Hbefore Hclock;
    [exact Hsorted |].
  rewrite run_cons. cbn [fst snd].
  apply Forall_cons in Hbefore as [Hnow Hrest]. cbn [snd] in Hnow.
  apply StronglySorted_cons in Hclock as [Hlater Hclock].
  destruct (ingest_window r now s) as [Hw | Hw].
  - apply IH; rewrite ?Hw; assumption.
  - apply IH; rewrite ?Hw.
    + apply push_time_ordered; assumption.
    + rewrite Forall_forall in Hrest, Hlater. apply Forall_forall.
      intros q Hq. apply push_Forall; [apply Hrest; exact Hq |].
      apply (Hlater q Hq).
    + exact Hclock.
Qed.

Lemma clock_keeps_time_order_witness :
  time_ordered (chargingData (run (session_after script_started) polls_six).1).
Proof.
  apply (clock_keeps_time_order polls_six (session_after script_started)).
  - constructor.
  - repeat constructor.
  - repeat constructor; cbn [snd]; lia.
Defined.

(** ** The alert message and the stale estimate *)

(** A poll keeps the notice, or replaces it by the unplug message. *)
Lemma ingest_notice r now s :
  notification (ingest r now s).1 = notification s
  \/ notification (ingest r now s).1 = TimeToUnplug.
Proof.
  destruct (isMonitoring s) eqn:Hrun;
    [| rewrite (ingest_idle r now s Hrun); auto].
  rewrite (ingest_running r now s Hrun).
  destruct (charging r) eqn:Hc.
  - destruct (reached_target (setBattery r s) r) eqn:Hr.
    + rewrite (callback_at_target _ _ _ Hc Hr).
      destruct (alertTriggered (setBattery r s)); simpl; auto.
    + rewrite (callback_below _ _ _ Hc Hr).
      destruct (record_and_estimate_frame r (setBattery r s) now)
        as (_ & _ & _ & _ & Hn & _).
      left. exact Hn.
  - rewrite (callback_unplugged _ _ _ Hc). auto.
Qed.

Lemma run_keeps_unplug_message polls : forall s,
  notification s = TimeToUnplug ->
  notification (run s polls).1 = TimeToUnplug.
Proof.
  induction polls as [| [r now] rest IH]; intros s Hn; [exact Hn |].
  rewrite run_cons. cbn [fst snd]. apply IH.
  destruct (ingest_notice r now s) as [Hsame | Hset]; congruence.
Qed.

(** X16.  Once the unplug message is set, polls never replace it; after
    any polls that end with one finding the battery not charging, the
    alert box is gone and the same message is shown in the regular
    notification box. *)
Theorem unplug_message_stays (s : state) (polls : list (reading * Z))
    (r : reading) (now : Z) :
  isMonitoring s = true ->
  notification s = TimeToUnplug ->
  charging r = false ->
  alertTriggered (run s (polls ++ [(r, now)])).1 = false
  /\ noticeBox (run s (polls ++ [(r, now)])).1 = Some TimeToUnplug.
Proof.
  intros Hrun Hn Hc.
  assert (Hnote : notification (run s (polls ++ [(r, now)])).1 = TimeToUnplug)
    by (apply run_keeps_unplug_message; exact Hn).
  assert (Harmed : alertTriggered (run s (polls ++ [(r, now)])).1 = false).
  { rewrite run_app. cbn [fst snd]. rewrite run_cons. cbn [fst snd run].
    destruct (run_frame polls s) as [Hm _]. rewrite Hrun in Hm.
    rewrite (ingest_running r now _ Hm), (callback_unplugged _ _ _ Hc).
    reflexivity. }
  split; [exact Harmed |].
  unfold noticeBox. rewrite Hnote, Harmed. reflexivity.
Qed.

Lemma unplug_message_stays_witness :
  noticeBox
    (run (ingest (Reading 90 true) 2000 (session_after script_started)).1
       ([(Reading 91 true, 4000%Z)] ++ [(Reading 91 false, 6000%Z)])).1
    = Some TimeToUnplug.
Proof.
  destruct (unplug_message_stays
              (ingest (Reading 90 true) 2000 (session_after script_started)).1
              [(Reading 91 true, 4000%Z)] (Reading 91 false) 6000
              eq_refl eq_refl eq_refl) as [_ Hbox].
  exact Hbox.
Defined.

(** X17.  Reaching the target does not clear the estimate: a poll that
    finds the battery charging at or above the target leaves the window
    and the estimate alone, so the estimate line goes on showing the last
    estimate made below the target. *)
Theorem estimate_outlives_target (s : state) (r : reading) (now : Z) (m : jsnum) :
  isMonitoring s = true ->
  charging r = true ->
  reached_target s r = true ->
  estimatedTime s = Some m ->
  chargingData (ingest r now s).1 = chargingData s
  /\ estimates (ingest r now s).2 = 0
  /\ estimateLine (ingest r now s).1 = Some (formatTime (Some m)).
Proof.
  intros Hrun Hc Hr He.
  rewrite (ingest_running r now s Hrun).
  rewrite (callback_at_target r (setBattery r s) now Hc Hr).
  unfold estimateLine, batteryCharging.
  destruct (alertTriggered (setBattery r s)); simpl;
    rewrite Hrun, Hc, He; auto.
Qed.

Lemma estimate_outlives_target_witness :
  estimateLine
    (ingest (Reading 90 true) 122000 (session_after script_estimated)).1
    = Some (formatTime (Some (Fin (inject_Z 40)))).
Proof.
  destruct (estimate_outlives_target (session_after script_estimated)
              (Reading 90 true) 122000 (Fin (inject_Z 40))
              eq_refl eq_refl eq_refl eq_refl) as (_ & _ & Hline).
  exact Hline.
Defined.

(** ** The rate as a number *)



(** ** The window a poll reads *)





(** ** The target of a session *)

Lemma page_reachable_reachable s : page_reachable s -> reachable s.
Proof.
  induction 1 as [| s e _ IH Hoff]; [apply reachable_initial |].
  apply reachable_step; [exact IH |].
  unfold offered in Hoff. apply andb_true_iff in Hoff as [Hen _]. exact Hen.
Qed.








(** ** The estimate as stored *)

(** X4.  In every reachable state, an estimate that is stored is never
    [NaN], never negative and never a fraction: [Math.ceil] leaves it as
    it is. *)
Theorem estimate_is_whole (s : state) (m : jsnum) :
  reachable s ->
  estimatedTime s = Some m ->
  m <> NaN /\ lt m (Fin 0) = false /\ ceil m = m.
Proof.
  intros Hreach Hm.
  destruct (reachable_estimate_whole s Hreach) as [Hnone | (n & Hn & Hsome)];
    [congruence |].
  rewrite Hsome in Hm. injection Hm as <-.
  split; [discriminate |]. split.
  - unfold lt. change 0%Q with (inject_Z 0). rewrite Qlt_bool_inject.
    apply Z.ltb_ge. exact Hn.
  - unfold ceil. rewrite Qceiling_Z. reflexivity.
Qed.

Lemma estimate_is_whole_witness :
  Fin (inject_Z 40) <> NaN
  /\ lt (Fin (inject_Z 40)) (Fin 0) = false
  /\ ceil (Fin (inject_Z 40)) = Fin (inject_Z 40).
Proof.
  apply (estimate_is_whole (session_after script_estimated) (Fin (inject_Z 40))
           (session_after_reachable script_estimated) eq_refl).
Defined.
